(** * en_toolbox: the API proxy handler of [app.py]

    A shallow embedding of [APIProxyHandler] and [main] from [app.py],
    together with the part of the Python standard library
    ([http.server.BaseHTTPRequestHandler], [urllib.request]) whose
    behaviour the handler relies on, and the properties of the relay that
    the specification states.

    Python objects are modelled as follows.
    - [os.environ] is a finite map from names to values.
    - The network is a function from the request handed to
      [urllib.request.urlopen] to what that call produces: a response
      object or a raised exception. Where the answers of the upstream
      themselves matter, [urlopen] is the default opener run over single
      exchanges with the servers, with its handling of errors and
      redirects.
    - Statements run in a state-and-exception monad: the state survives a
      raised exception, as the side effects of Python statements do.
    - What a handler writes to the client is kept as a list of tokens of
      the HTTP/1.x wire format (status line, header lines, the blank line
      that ends the headers, payload). The HTTP/0.9 mode of the standard
      library, in which no status line and no header is written, is not
      modelled; writes to the client socket are assumed to succeed. *)

From Stdlib Require Import Strings.Byte.
From stdpp Require Import base strings gmap list pretty.

Local Open Scope Z_scope.

(** ** Python values *)

Abbreviation bytes := (list byte).

(** The exceptions that the program distinguishes.  [HTTPError] and
    [Exception] are caught by [except Exception]; [KeyboardInterrupt] and
    [SystemExit] derive from [BaseException] only. *)
Inductive exn : Type :=
  | HTTPError (code : Z) (reason : string)
              (hdrs : list (string * string)) (fp : bytes)
  | Exception (str : string)
  | KeyboardInterrupt
  | SystemExit (code : Z).

(** [str(e)] *)
Definition str_exn (e : exn) : string :=
  match e with
  | HTTPError code reason _ _ =>
      "HTTP Error " +:+ pretty code +:+ ": " +:+ reason
  | Exception s => s
  | KeyboardInterrupt => ""
  | SystemExit code => pretty code
  end.

(** [not token] for the result of [os.environ.get]: [None] and the empty
    string are false values. *)
Definition not_ (token : option string) : bool :=
  match token with
  | None => true
  | Some s => bool_decide (s = "")
  end.

(** [s * n] on strings. *)
Fixpoint str_mul (s : string) (n : nat) : string :=
  match n with
  | O => ""
  | S n' => s +:+ str_mul s n'
  end.

(** ** The state-and-exception monad *)

Definition M (S A : Type) : Type := S → (A + exn) * S.

Global Instance M_ret {S} : MRet (M S) := λ A a s, (inl a, s).

Global Instance M_bind {S} : MBind (M S) := λ A B f m s,
  match m s with
  | (inl a, s') => f a s'
  | (inr e, s') => (inr e, s')
  end.

Definition raise {S A} (e : exn) : M S A := λ s, (inr e, s).

Definition get {S} : M S S := λ s, (inl s, s).

Definition modify {S} (f : S → S) : M S unit := λ s, (inl tt, f s).

(** [try: body except ...: handler]; the handler decides which exceptions
    it takes and re-raises the others. *)
Definition try_except {S A} (body : M S A) (handler : exn → M S A) : M S A :=
  λ s,
  match body s with
  | (inl a, s') => (inl a, s')
  | (inr e, s') => handler e s'
  end.

(** Turning the outcome of a call into the world into a computation. *)
Definition outcome {S A} (r : A + exn) : M S A := λ s, (r, s).

(** ** [urllib.request] *)

(** [urllib.request.Request(url, headers=...)]; [headers] is a dict. *)
Record Request : Type := mkRequest {
  full_url : string;
  headers : gmap string string
}.

(** The object that [urlopen] returns. *)
Record HTTPResponse : Type := mkHTTPResponse {
  status : Z;
  getheaders : list (string * string);
  read : bytes + exn
}.

(** The upstream as seen through [urlopen]. *)
Definition network : Type := Request → HTTPResponse + exn.

(** ** [http.server.BaseHTTPRequestHandler] *)

(** One token of what is written to the client. *)
Inductive wire : Type :=
  | StatusLine (code : Z) (message : option string)
  | HeaderLine (keyword value : string)
  | EndHeaders
  | Payload (data : bytes).

(** The parsed request, as the handler object holds it. *)
Record request : Type := mkReq {
  client_address : string;
  requestline : string;
  command : string;
  path : string
}.

(** What handling a request changes. *)
Record output : Type := mkOutput {
  stdout : list string;            (* lines printed by the process *)
  urlopened : list Request;        (* requests handed to urlopen *)
  _headers_buffer : list wire;     (* self._headers_buffer *)
  wfile : list wire;               (* self.wfile *)
  static_served : list string      (* paths given to super().do_GET() *)
}.

Definition output0 : output := mkOutput [] [] [] [] [].

(** Values of the handler class and of the clock that the standard
    library puts into a response. [error_page code message] is the body
    that [send_error] renders from [error_message_format]. *)
Record server : Type := mkServer {
  version_string : string;
  date_time_string : string;
  error_content_type : string;
  error_page : Z → string → bytes
}.

Definition print (line : string) : M output unit :=
  modify (λ o, mkOutput (stdout o ++ [line]) (urlopened o)
                        (_headers_buffer o) (wfile o) (static_served o)).

Definition buffer_append (w : wire) : M output unit :=
  modify (λ o, mkOutput (stdout o) (urlopened o)
                        (_headers_buffer o ++ [w]) (wfile o) (static_served o)).

Definition flush_headers : M output unit :=
  modify (λ o, mkOutput (stdout o) (urlopened o)
                        [] (wfile o ++ _headers_buffer o) (static_served o)).

Definition wfile_write (data : bytes) : M output unit :=
  modify (λ o, mkOutput (stdout o) (urlopened o)
                        (_headers_buffer o) (wfile o ++ [Payload data])
                        (static_served o)).

(** [urllib.request.urlopen(req)]: the request reaches the network. *)
Definition urlopen (net : network) (req : Request) : M output HTTPResponse :=
  modify (λ o, mkOutput (stdout o) (urlopened o ++ [req])
                        (_headers_buffer o) (wfile o) (static_served o)) ;;
  outcome (net req).

(** [super().do_GET()]: static file serving by [SimpleHTTPRequestHandler].
    Only the fact that the path was handed over is recorded. *)
Definition super_do_GET (self : request) : M output unit :=
  modify (λ o, mkOutput (stdout o) (urlopened o)
                        (_headers_buffer o) (wfile o)
                        (static_served o ++ [path self])).

Definition quote : string := String (Ascii.ascii_of_byte x22) "".

Section Handler.

Variable srv : server.
Variable environ : gmap string string.
Variable net : network.

(** [APIProxyHandler.log_message], called by the standard library with
    [format % args] being [text]. *)
Definition log_message (self : request) (text : string) : M output unit :=
  print ("[" +:+ client_address self +:+ "] " +:+ text).

Definition log_request (self : request) (code : Z) : M output unit :=
  log_message self
    (quote +:+ requestline self +:+ quote +:+ " " +:+ pretty code +:+ " -").

Definition log_error (self : request) (code : Z) (message : string)
  : M output unit :=
  log_message self ("code " +:+ pretty code +:+ ", message " +:+ message).

Definition send_response_only (code : Z) (message : option string)
  : M output unit :=
  buffer_append (StatusLine code message).

Definition send_header (keyword value : string) : M output unit :=
  buffer_append (HeaderLine keyword value).

Definition send_response (self : request) (code : Z) (message : option string)
  : M output unit :=
  log_request self code ;;
  send_response_only code message ;;
  send_header "Server" (version_string srv) ;;
  send_header "Date" (date_time_string srv).

Definition end_headers : M output unit :=
  buffer_append EndHeaders ;;
  flush_headers.

(** [send_error(code, message)]: no body for a code below 200 and for
    204, 205 and 304. *)
Definition send_error (self : request) (code : Z) (message : string)
  : M output unit :=
  log_error self code message ;;
  send_response self code (Some message) ;;
  send_header "Connection" "close" ;;
  let body :=
    if bool_decide (200 ≤ code) && bool_decide (code ∉ [204; 205; 304])
    then Some (error_page srv code message) else None in
  match body with
  | Some b =>
      send_header "Content-Type" (error_content_type srv) ;;
      send_header "Content-Length" (pretty (length b))
  | None => mret tt
  end ;;
  end_headers ;;
  match body with
  | Some ((_ :: _) as b) =>
      if bool_decide (command self ≠ "HEAD") then wfile_write b else mret tt
  | _ => mret tt
  end.

(** ** [app.py] *)

Definition HTML_FILE : string := "emergency-signin.html".

Definition api_url : string :=
  "https://app.emergencynetworking.com/department-api/users".

(** [f"{token}"] for the result of [os.environ.get]. *)
Definition format_token (token : option string) : string :=
  match token with
  | Some s => s
  | None => "None"
  end.

(** The request that [handle_api_request] builds. *)
Definition api_request (token : option string) : Request :=
  mkRequest api_url
    {[ "Authorization" := "Bearer " +:+ format_token token;
       "Content-Type" := "application/json";
       "User-Agent" := "Emergency-SignIn-Generator-Render/1.0" ]}.

Definition handle_api_request (self : request) : M output unit :=
  try_except
    (let token := environ !! "EMERGENCY_NETWORKING_TOKEN" in
     if not_ token then
       print "ERROR: EMERGENCY_NETWORKING_TOKEN environment variable not set" ;;
       send_error self 500 "API token not configured"
     else
       print "Making API request to Emergency Networking..." ;;
       let req := api_request token in
       response ← urlopen net req ;
       data ← outcome (read response) ;
       print ("API request successful, received "
              +:+ pretty (length data) +:+ " bytes") ;;
       send_response self 200 None ;;
       send_header "Content-Type" "application/json" ;;
       send_header "Access-Control-Allow-Origin" "*" ;;
       send_header "Access-Control-Allow-Methods" "GET, POST, OPTIONS" ;;
       send_header "Access-Control-Allow-Headers"
                   "Content-Type, Authorization" ;;
       end_headers ;;
       wfile_write data)
    (λ e,
     match e with
     | HTTPError code reason _ _ =>
         let error_msg := "API Error: " +:+ pretty code +:+ " - " +:+ reason in
         print error_msg ;;
         send_error self code error_msg
     | Exception _ =>
         let error_msg := "Proxy Error: " +:+ str_exn e in
         print error_msg ;;
         send_error self 500 error_msg
     | _ => raise e
     end).

Definition do_GET (self : request) : M output unit :=
  if bool_decide (path self = "/api/users") then
    handle_api_request self
  else if bool_decide (path self = "/") || bool_decide (path self = "") then
    send_response self 302 None ;;
    send_header "Location" ("/" +:+ HTML_FILE) ;;
    end_headers
  else
    super_do_GET self.

Definition do_OPTIONS (self : request) : M output unit :=
  send_response self 200 None ;;
  send_header "Access-Control-Allow-Origin" "*" ;;
  send_header "Access-Control-Allow-Methods" "GET, POST, OPTIONS" ;;
  send_header "Access-Control-Allow-Headers" "Content-Type, Authorization" ;;
  end_headers.

End Handler.

(** ** The response as the caller reads it *)

(** The status code of the first status line. *)
Fixpoint response_status (w : list wire) : option Z :=
  match w with
  | [] => None
  | StatusLine code _ :: _ => Some code
  | _ :: w' => response_status w'
  end.

(** The message of the first status line; [Some None] stands for the
    standard phrase of the code. *)
Fixpoint response_message (w : list wire) : option (option string) :=
  match w with
  | [] => None
  | StatusLine _ message :: _ => Some message
  | _ :: w' => response_message w'
  end.

(** The header lines before the blank line. *)
Fixpoint response_headers (w : list wire) : list (string * string) :=
  match w with
  | [] => []
  | EndHeaders :: _ => []
  | HeaderLine k v :: w' => (k, v) :: response_headers w'
  | _ :: w' => response_headers w'
  end.

(** The payload. *)
Fixpoint response_body (w : list wire) : bytes :=
  match w with
  | [] => []
  | Payload data :: w' => data ++ response_body w'
  | _ :: w' => response_body w'
  end.

Definition CORS_HEADERS : list (string * string) :=
  [ ("Access-Control-Allow-Origin", "*");
    ("Access-Control-Allow-Methods", "GET, POST, OPTIONS");
    ("Access-Control-Allow-Headers", "Content-Type, Authorization") ].

(** The header lines whose name starts with [Access-Control-]. *)
Definition cors_headers (hs : list (string * string))
  : list (string * string) :=
  filter (λ kv, String.prefix "Access-Control-" kv.1 = true) hs.

(** The value of the first header line named [k]. *)
Fixpoint header (k : string) (hs : list (string * string))
  : option string :=
  match hs with
  | [] => None
  | (k', v) :: hs' => if bool_decide (k' = k) then Some v else header k hs'
  end.

(** [needle] occurs in [hay] as a contiguous run. *)
Definition occurs {A} (needle hay : list A) : Prop :=
  ∃ l1 l2, hay = l1 ++ needle ++ l2.

Definition encode (s : string) : bytes := String.list_byte_of_string s.

(** The text [s] can be read in the wire token [w]. *)
Definition appears_in (s : string) (w : wire) : Prop :=
  match w with
  | StatusLine _ (Some m) => occurs (encode s) (encode m)
  | StatusLine _ None => False
  | HeaderLine k v => occurs (encode s) (encode k) ∨ occurs (encode s) (encode v)
  | EndHeaders => False
  | Payload data => occurs (encode s) data
  end.

Definition exposed (s : string) (w : list wire) : Prop :=
  Exists (appears_in s) w.

(** ** Process start: [main] *)

(** What the process sees at start, besides [os.environ]. [PORT] is the
    module constant, evaluated when the module is loaded. [bind] is what
    constructing [TCPServer] on an address does, [serve] what
    [serve_forever] does: [None] for a normal return, or the exception
    raised. *)
Record host : Type := mkHost {
  script_dir : string;
  files : gset (string * string);     (* directory, name *)
  PORT : Z;
  bind : string * Z → option exn;
  serve : option exn
}.

Record process : Type := mkProcess {
  cwd : string;
  printed : list string;
  sockets : list (string * Z)         (* addresses handed to TCPServer *)
}.

Definition chdir (dir : string) : M process unit :=
  modify (λ p, mkProcess dir (printed p) (sockets p)).

Definition echo (line : string) : M process unit :=
  modify (λ p, mkProcess (cwd p) (printed p ++ [line]) (sockets p)).

(** [Path(name).exists()], relative to the working directory. *)
Definition Path_exists (h : host) (name : string) : M process bool :=
  p ← get ; mret (bool_decide ((cwd p, name) ∈ files h)).

Definition sys_exit {A} (code : Z) : M process A := raise (SystemExit code).

Definition raise_if (r : option exn) : M process unit :=
  match r with
  | Some e => raise e
  | None => mret tt
  end.

(** [socketserver.TCPServer(address, APIProxyHandler)] *)
Definition TCPServer (h : host) (address : string * Z) : M process unit :=
  modify (λ p, mkProcess (cwd p) (printed p) (sockets p ++ [address])) ;;
  raise_if (bind h address).

Definition serve_forever (h : host) : M process unit := raise_if (serve h).

Definition newline : string := String (Ascii.ascii_of_byte x0a) "".

Definition main (h : host) (environ : gmap string string) : M process unit :=
  let script_dir := script_dir h in
  chdir script_dir ;;
  html ← Path_exists h HTML_FILE ;
  (if negb html then
     echo ("Error: " +:+ HTML_FILE +:+ " not found in current directory") ;;
     echo ("Current directory: " +:+ script_dir) ;;
     sys_exit 1
   else mret tt) ;;
  let token := environ !! "EMERGENCY_NETWORKING_TOKEN" in
  (if not_ token then
     echo "WARNING: EMERGENCY_NETWORKING_TOKEN environment variable not set" ;;
     echo "This will cause API requests to fail"
   else
     echo "✓ EMERGENCY_NETWORKING_TOKEN environment variable found") ;;
  echo "Emergency Networking Sign-In Generator - Render Deployment" ;;
  echo (str_mul "=" 60) ;;
  echo ("Serving at: http://0.0.0.0:" +:+ pretty (PORT h)) ;;
  echo ("HTML file: " +:+ HTML_FILE) ;;
  echo "API Proxy: /api/users -> Emergency Networking API" ;;
  echo "Press Ctrl+C to stop server" ;;
  echo "" ;;
  try_except
    (TCPServer h ("0.0.0.0", PORT h) ;;
     serve_forever h)
    (λ e,
     match e with
     | KeyboardInterrupt => echo (newline +:+ "Server stopped.")
     | HTTPError _ _ _ _ | Exception _ =>
         echo ("Server error: " +:+ str_exn e) ;;
         sys_exit 1
     | _ => raise e
     end).

(** The exit status of the process: that of [SystemExit], 0 for a normal
    return, and 1 for any other exception that escapes [main]. *)
Definition exit_status (r : unit + exn) : Z :=
  match r with
  | inl _ => 0
  | inr (SystemExit code) => code
  | inr _ => 1
  end.

Definition process0 (dir : string) : process := mkProcess dir [] [].

(** ** Definitions used to state the properties *)

Definition TOKEN : string := "EMERGENCY_NETWORKING_TOKEN".

(** None of the three CORS headers is among the header lines. *)
Definition lacks_cors (hs : list (string * string)) : Prop :=
  Forall (λ k, header k hs = None) (CORS_HEADERS.*1).

(** The codes for which [send_error] renders a body. *)
Definition has_body (code : Z) : bool :=
  bool_decide (200 ≤ code) && bool_decide (code ∉ [204; 205; 304]).

(** What [send_error] passes to [wfile]. *)
Definition error_wire (srv : server) (self : request)
    (code : Z) (message : string) : list wire :=
  [ StatusLine code (Some message);
    HeaderLine "Server" (version_string srv);
    HeaderLine "Date" (date_time_string srv);
    HeaderLine "Connection" "close" ] ++
  (if has_body code
   then [ HeaderLine "Content-Type" (error_content_type srv);
          HeaderLine "Content-Length"
            (pretty (length (error_page srv code message))) ]
   else []) ++
  [ EndHeaders ] ++
  (if has_body code && bool_decide (command self ≠ "HEAD")
   then match error_page srv code message with
        | [] => []
        | b => [ Payload b ]
        end
   else []).

(** The line that [log_request] prints. *)
Definition request_log (self : request) (code : Z) : string :=
  "[" +:+ client_address self +:+ "] " +:+
  quote +:+ requestline self +:+ quote +:+ " " +:+ pretty code +:+ " -".

(** The lines that [send_error] prints. *)
Definition error_log (self : request) (code : Z) (message : string)
  : list string :=
  [ "[" +:+ client_address self +:+ "] " +:+
    "code " +:+ pretty code +:+ ", message " +:+ message;
    request_log self code ].

(** What [urlopen] followed by [read] produces for a request. *)
Definition fetched (net : network) (req : Request) : bytes + exn :=
  match net req with
  | inl response => read response
  | inr e => inr e
  end.

Definition success_wire (srv : server) (data : bytes) : list wire :=
  [ StatusLine 200 None;
    HeaderLine "Server" (version_string srv);
    HeaderLine "Date" (date_time_string srv);
    HeaderLine "Content-Type" "application/json";
    HeaderLine "Access-Control-Allow-Origin" "*";
    HeaderLine "Access-Control-Allow-Methods" "GET, POST, OPTIONS";
    HeaderLine "Access-Control-Allow-Headers" "Content-Type, Authorization";
    EndHeaders;
    Payload data ].

Definition api_error_msg (code : Z) (reason : string) : string :=
  "API Error: " +:+ pretty code +:+ " - " +:+ reason.

(** The response of the proxy path as a function of what was fetched. *)
Definition relay (srv : server) (self : request) (r : bytes + exn)
  : list wire :=
  match r with
  | inl data => success_wire srv data
  | inr (HTTPError code reason _ _) =>
      error_wire srv self code (api_error_msg code reason)
  | inr (Exception s) => error_wire srv self 500 ("Proxy Error: " +:+ s)
  | inr _ => []
  end.

(** The lines that the proxy path prints. *)
Definition relay_log (self : request) (r : bytes + exn) : list string :=
  "Making API request to Emergency Networking..." ::
  match r with
  | inl data =>
      [ "API request successful, received "
          +:+ pretty (length data) +:+ " bytes";
        request_log self 200 ]
  | inr (HTTPError code reason _ _) =>
      api_error_msg code reason ::
      error_log self code (api_error_msg code reason)
  | inr (Exception s) =>
      ("Proxy Error: " +:+ s) :: error_log self 500 ("Proxy Error: " +:+ s)
  | inr _ => []
  end.

(** What the proxy path returns: exceptions outside [Exception] escape. *)
Definition relay_result (r : bytes + exn) : unit + exn :=
  match r with
  | inr KeyboardInterrupt => inr KeyboardInterrupt
  | inr (SystemExit c) => inr (SystemExit c)
  | _ => inl tt
  end.

Definition redirect_wire (srv : server) : list wire :=
  [ StatusLine 302 None;
    HeaderLine "Server" (version_string srv);
    HeaderLine "Date" (date_time_string srv);
    HeaderLine "Location" "/emergency-signin.html";
    EndHeaders ].

Definition preflight_wire (srv : server) : list wire :=
  [ StatusLine 200 None;
    HeaderLine "Server" (version_string srv);
    HeaderLine "Date" (date_time_string srv);
    HeaderLine "Access-Control-Allow-Origin" "*";
    HeaderLine "Access-Control-Allow-Methods" "GET, POST, OPTIONS";
    HeaderLine "Access-Control-Allow-Headers" "Content-Type, Authorization";
    EndHeaders ].

(** How [main] ends once the server is being constructed. *)
Definition serving_result (h : host) : unit + exn :=
  let raised :=
    match bind h ("0.0.0.0", PORT h) with
    | Some e => Some e
    | None => serve h
    end in
  match raised with
  | None | Some KeyboardInterrupt => inl tt
  | Some (SystemExit c) => inr (SystemExit c)
  | Some _ => inr (SystemExit 1)
  end.

(** The response [w] carries the status, the content type and the body
    [B] of the upstream response [up] unchanged. *)
Definition relayed_verbatim (up : HTTPResponse) (B : bytes) (w : list wire)
  : Prop :=
  response_status w = Some (status up) ∧
  header "Content-Type" (response_headers w)
    = header "Content-Type" (getheaders up) ∧
  response_body w = B.

(** ** Concrete servers, requests and upstreams *)

Definition example_server : server :=
  mkServer "BaseHTTP/0.6 Python/3.11.4" "Mon, 02 Nov 2026 10:00:00 GMT"
           "text/html;charset=utf-8"
           (λ code message,
              encode ("Error code: " +:+ pretty code +:+ ". Message: "
                      +:+ message +:+ ".")).

Definition get_request (p : string) : request :=
  mkReq "10.0.0.7" ("GET " +:+ p +:+ " HTTP/1.1") "GET" p.

Definition environ_with (tok : string) : gmap string string :=
  {[ TOKEN := tok ]}.

(** An upstream that answers every request in the same way. *)
Definition upstream_answers (r : HTTPResponse + exn) : network := λ _, r.

Definition users_body : bytes := encode "[{id: 1}, {id: 2}]".

Definition users_200 : HTTPResponse :=
  mkHTTPResponse 200 [("Content-Type", "application/json")] (inl users_body).

Definition created_201 : HTTPResponse :=
  mkHTTPResponse 201 [("Content-Type", "text/plain")] (inl (encode "created")).

(** An upstream that sends the Authorization header back in its body. *)
Definition echo_upstream : network := λ req,
  inl (mkHTTPResponse 200 [("Content-Type", "text/plain")]
         (inl (encode ("Authorization: "
                       +:+ default "" (headers req !! "Authorization"))))).

Definition not_found_404 : exn :=
  HTTPError 404 "Not Found" [("Content-Type", "application/json")]
            (encode "{error: no such department}").

Definition host_without_html : host :=
  mkHost "/opt/render/project/src" ∅ 10000 (λ _, None) None.

Definition host_with_html : host :=
  mkHost "/opt/render/project/src"
         {[ ("/opt/render/project/src", HTML_FILE) ]}
         10000 (λ _, None) (Some KeyboardInterrupt).

(** ** Definitions used to state further properties *)

(** The output [o] followed by the effects [d] of handling one more
    request. *)
Definition extend (o d : output) : output :=
  mkOutput (stdout o ++ stdout d) (urlopened o ++ urlopened d)
           (_headers_buffer d) (wfile o ++ wfile d)
           (static_served o ++ static_served d).

(** One complete response: a status line, header lines, the blank line,
    and at most one payload. *)
Definition one_response (w : list wire) : Prop :=
  ∃ code message (hs : list (string * string)) payload,
    w = StatusLine code message
          :: (map (λ kv, HeaderLine kv.1 kv.2) hs ++ EndHeaders :: payload) ∧
    (payload = [] ∨ ∃ b, payload = [Payload b]).

(** What constructing and running the server raises, if anything. *)
Definition server_raised (h : host) : option exn :=
  match bind h ("0.0.0.0", PORT h) with
  | Some e => Some e
  | None => serve h
  end.

(** The lines [main] prints about the token. *)
Definition token_lines (environ : gmap string string) : list string :=
  if not_ (environ !! TOKEN)
  then [ "WARNING: EMERGENCY_NETWORKING_TOKEN environment variable not set";
         "This will cause API requests to fail" ]
  else [ "✓ EMERGENCY_NETWORKING_TOKEN environment variable found" ].

(** The banner [main] prints before it starts the server. *)
Definition banner (h : host) : list string :=
  [ "Emergency Networking Sign-In Generator - Render Deployment";
    str_mul "=" 60;
    "Serving at: http://0.0.0.0:" +:+ pretty (PORT h);
    "HTML file: emergency-signin.html";
    "API Proxy: /api/users -> Emergency Networking API";
    "Press Ctrl+C to stop server";
    "" ].

(** The line [main] prints when the server stops by an exception. *)
Definition closing_lines (h : host) : list string :=
  match server_raised h with
  | Some KeyboardInterrupt => [ newline +:+ "Server stopped." ]
  | Some (HTTPError _ _ _ _ as e) | Some (Exception _ as e) =>
      [ "Server error: " +:+ str_exn e ]
  | _ => []
  end.

(** The server ends without an error: it returns, is interrupted from
    the keyboard, or exits with status 0. *)
Definition stops_cleanly (h : host) : Prop :=
  match server_raised h with
  | None | Some KeyboardInterrupt => True
  | Some (SystemExit c) => c = 0
  | Some _ => False
  end.

(** An upstream that cannot be reached in time. *)
Definition timed_out : exn := Exception "<urlopen error timed out>".

(** A host on which the port is taken. *)
Definition host_port_in_use : host :=
  mkHost "/opt/render/project/src"
         {[ ("/opt/render/project/src", HTML_FILE) ]}
         10000
         (λ _, Some (Exception "[Errno 98] Address already in use")) None.

(** ** Below [urlopen]: the default opener of [urllib.request]

    [urlopen] sends the request, hands every answer outside 200..299 to
    the error handlers, and follows redirects by itself (CPython 3.11:
    [HTTPErrorProcessor], [HTTPRedirectHandler], [HTTPDefaultErrorHandler]). *)

(** What one exchange with a server brings back. *)
Record reply : Type := mkReply {
  reply_code : Z;
  reply_msg : string;
  reply_hdrs : list (string * string);
  reply_read : bytes + exn
}.

(** What lies below the opener. [do_open req] is one exchange: the
    answer of the server, or the exception raised on the way.
    [redirect_url base location] is the URL that the redirect handler
    opens for a Location header ([urlparse], [urlunparse], [quote] and
    [urljoin]), or [None] when its scheme is not http, https, ftp or
    empty. *)
Record client : Type := mkClient {
  do_open : Request → reply + exn;
  redirect_url : string → string → option string
}.

(** [str.lower()] on the characters A..Z. *)
Definition ascii_lower (c : Ascii.ascii) : Ascii.ascii :=
  let n := Ascii.N_of_ascii c in
  if ((65 <=? n) && (n <=? 90))%N then Ascii.ascii_of_N (n + 32) else c.

Fixpoint lower (s : string) : string :=
  match s with
  | EmptyString => EmptyString
  | String c s' => String (ascii_lower c) (lower s')
  end.

(** [headers[name]] on the headers of an answer: the first line whose
    name is [name], whatever the case of its letters. *)
Fixpoint get_header (name : string) (hdrs : list (string * string))
  : option string :=
  match hdrs with
  | [] => None
  | (k, v) :: hdrs' =>
      if bool_decide (lower k = lower name) then Some v
      else get_header name hdrs'
  end.

(** The target named by a redirect: the Location header, else URI. *)
Definition location (hdrs : list (string * string)) : option string :=
  match get_header "location" hdrs with
  | Some url => Some url
  | None => get_header "uri" hdrs
  end.

(** The headers that [redirect_request] gives to the new request. *)
Definition redirect_headers (h : gmap string string) : gmap string string :=
  filter (λ kv, lower kv.1 ∉ ["content-length"; "content-type"]) h.

Definition REDIRECT_CODES : list Z := [301; 302; 303; 307; 308].

Definition inf_msg : string :=
  "The HTTP server returned a redirect error that would lead to an infinite loop."
  +:+ String (Ascii.ascii_of_byte x0a) "The last 30x error message was:"
  +:+ String (Ascii.ascii_of_byte x0a) "".

(** The bytes of the answer that an [HTTPError] carries. *)
Definition reply_fp (r : reply) : bytes :=
  match reply_read r with
  | inl b => b
  | inr _ => []
  end.

(** [OpenerDirector.open]. [visited] is [redirect_dict]: how often each
    URL has been redirected to; a URL is refused the fifth time, and any
    URL once ten are in the dict. [fuel] bounds the recursion; [None]
    stands for fuel that ran out. *)
Fixpoint open_ (fuel : nat) (c : client) (visited : gmap string nat)
    (req : Request) : option (HTTPResponse + exn) :=
  match fuel with
  | O => None
  | S fuel' =>
      match do_open c req with
      | inr e => Some (inr e)
      | inl r =>
          let code := reply_code r in
          let msg := reply_msg r in
          if bool_decide (200 ≤ code < 300) then
            Some (inl (mkHTTPResponse code (reply_hdrs r) (reply_read r)))
          else if bool_decide (code ∈ REDIRECT_CODES) then
            match location (reply_hdrs r) with
            | None =>
                Some (inr (HTTPError code msg (reply_hdrs r) (reply_fp r)))
            | Some newurl =>
                match redirect_url c (full_url req) newurl with
                | None =>
                    Some (inr (HTTPError code
                                 (msg +:+ " - Redirection to url '" +:+ newurl
                                  +:+ "' is not allowed")
                                 (reply_hdrs r) (reply_fp r)))
                | Some newurl =>
                    let seen := default 0%nat (visited !! newurl) in
                    if bool_decide (4 ≤ seen)%nat
                       || bool_decide (10 ≤ size visited)%nat
                    then
                      Some (inr (HTTPError code (inf_msg +:+ msg)
                                   (reply_hdrs r) (reply_fp r)))
                    else
                      match reply_read r with
                      | inr e => Some (inr e)
                      | inl _ =>
                          open_ fuel' c (<[newurl := S seen]> visited)
                                (mkRequest newurl
                                   (redirect_headers (headers req)))
                      end
                end
            end
          else
            Some (inr (HTTPError code msg (reply_hdrs r) (reply_fp r)))
      end
  end.

(** [urlopen] over a client. A URL is opened at most four times and at
    most ten URLs are redirected to, so 41 exchanges are never exceeded
    (lemma [open_total]). *)
Definition urlopen_via (c : client) : network := λ req,
  match open_ 41 c ∅ req with
  | Some r => r
  | None => inr (Exception "maximum recursion depth exceeded")
  end.

(** The number of redirects recorded in [redirect_dict]. *)
Definition redirects (visited : gmap string nat) : nat :=
  map_fold (λ _ n acc, (n + acc)%nat) 0%nat visited.

(** An upstream that has moved: the URL of the API answers 302 with a
    Location, and the new URL answers 200. *)
Definition moved_url : string :=
  "https://app.emergencynetworking.com/department-api/v2/users".

Definition moved_302 : reply :=
  mkReply 302 "Found" [("Location", moved_url)] (inl []).

Definition moved_client : client :=
  mkClient
    (λ req,
       if bool_decide (full_url req = api_url) then inl moved_302
       else inl (mkReply 200 "OK" [("Content-Type", "application/json")]
                   (inl users_body)))
    (λ _ url, Some url).

(** An upstream that answers every request with 404. *)
Definition client_404 : client :=
  mkClient
    (λ _, inl (mkReply 404 "Not Found"
                 [("Content-Type", "application/json")]
                 (inl (encode "{error: no such department}"))))
    (λ _ url, Some url).

(** ** Loading the module

    [PORT = int(os.environ.get('PORT', 10000))] is evaluated when the
    module is loaded; [int_] is the builtin [int] on strings. *)
Definition module_PORT (int_ : string → Z + exn)
    (environ : gmap string string) : Z + exn :=
  match environ !! "PORT" with
  | Some s => int_ s
  | None => inl 10000
  end.

(** The host as [main] sees it once the module has bound [PORT]. *)
Definition with_PORT (h : host) (port : Z) : host :=
  mkHost (script_dir h) (files h) port (bind h) (serve h).

(** Running [app.py] as a script: the module is loaded, which computes
    [PORT] from the environment, then [main()] is called. *)
Definition script (int_ : string → Z + exn) (h : host)
    (environ : gmap string string) : M process unit :=
  port ← outcome (module_PORT int_ environ) ;
  main (with_PORT h port) environ.

(** The status line and header lines of a successful proxy response. *)
Definition success_head (srv : server) : list wire :=
  [ StatusLine 200 None;
    HeaderLine "Server" (version_string srv);
    HeaderLine "Date" (date_time_string srv);
    HeaderLine "Content-Type" "application/json";
    HeaderLine "Access-Control-Allow-Origin" "*";
    HeaderLine "Access-Control-Allow-Methods" "GET, POST, OPTIONS";
    HeaderLine "Access-Control-Allow-Headers" "Content-Type, Authorization";
    EndHeaders ].

(** [int] on the decimal digits used in the examples. *)
Definition example_int (s : string) : Z + exn :=
  if bool_decide (s = "8000") then inl 8000
  else if bool_decide (s = "9000") then inl 9000
  else inr (Exception ("invalid literal for int() with base 10: '"
                       +:+ s +:+ "'")).

(** * Running the handlers *)

(** Decimal printing is kept folded while a body is run. *)
#[local] Arguments pretty : simpl never.

(** Run a body: unfold the library calls, the monad and the fields of the
    state, by value, so that each state is computed once. *)
Ltac run :=
  cbv [log_message log_request log_error send_response_only send_header
       send_response end_headers print buffer_append flush_headers
       wfile_write urlopen super_do_GET outcome modify raise get try_except
       chdir echo Path_exists sys_exit raise_if TCPServer serve_forever
       mbind M_bind mret M_ret
       stdout urlopened _headers_buffer wfile static_served
       cwd printed sockets].

(** Bring the lists that a run appends to into the same shape. *)
Ltac same_lists := rewrite <- ?app_assoc; cbn [app]; rewrite ?app_nil_r.

Section SendError.

Context (srv : server) (self : request).

Lemma send_error_run code message o :
  _headers_buffer o = [] →
  send_error srv self code message o =
  (inl tt,
   mkOutput (stdout o ++ error_log self code message) (urlopened o) []
            (wfile o ++ error_wire srv self code message) (static_served o)).
Proof.
  intros Hbuf. destruct o as [out ups buf wf st]. simpl in Hbuf. subst buf.
  unfold send_error, error_wire, error_log, request_log, has_body.
  destruct (bool_decide (200 ≤ code) && bool_decide (code ∉ [204; 205; 304])).
  - destruct (error_page srv code message) as [|b0 bs]; run; cbn [andb].
    + same_lists. by destruct (bool_decide (command self ≠ "HEAD")).
    + destruct (bool_decide (command self ≠ "HEAD")); run; by same_lists.
  - run. by same_lists.
Qed.

Lemma error_wire_status code message :
  response_status (error_wire srv self code message) = Some code.
Proof. reflexivity. Qed.

Lemma error_wire_message code message :
  response_message (error_wire srv self code message) = Some (Some message).
Proof. reflexivity. Qed.

Lemma error_wire_headers code message :
  response_headers (error_wire srv self code message) =
  [ ("Server", version_string srv); ("Date", date_time_string srv);
    ("Connection", "close") ] ++
  (if has_body code
   then [ ("Content-Type", error_content_type srv);
          ("Content-Length", pretty (length (error_page srv code message))) ]
   else []).
Proof. unfold error_wire. destruct (has_body code); reflexivity. Qed.

Lemma error_wire_lacks_cors code message :
  lacks_cors (response_headers (error_wire srv self code message)).
Proof.
  rewrite error_wire_headers. unfold lacks_cors.
  destruct (has_body code); repeat constructor.
Qed.

Lemma error_wire_body code message :
  response_body (error_wire srv self code message) =
  if has_body code && bool_decide (command self ≠ "HEAD")
  then error_page srv code message else [].
Proof.
  unfold error_wire.
  destruct (has_body code); cbn; [|reflexivity].
  destruct (bool_decide (command self ≠ "HEAD")); cbn; [|reflexivity].
  destruct (error_page srv code message); cbn; [reflexivity|].
  by rewrite app_nil_r.
Qed.

End SendError.

Section Proxy.

Context (srv : server) (environ : gmap string string) (net : network).
Context (self : request).

Lemma handle_api_request_no_token o :
  not_ (environ !! TOKEN) = true →
  _headers_buffer o = [] →
  handle_api_request srv environ net self o =
  (inl tt,
   mkOutput
     (stdout o ++
      "ERROR: EMERGENCY_NETWORKING_TOKEN environment variable not set" ::
      error_log self 500 "API token not configured")
     (urlopened o) []
     (wfile o ++ error_wire srv self 500 "API token not configured")
     (static_served o)).
Proof.
  intros Hnot Hbuf. unfold handle_api_request, TOKEN in *. rewrite Hnot.
  run. rewrite send_error_run by exact Hbuf. cbn.
  by rewrite <- app_assoc.
Qed.

Lemma handle_api_request_token o :
  not_ (environ !! TOKEN) = false →
  _headers_buffer o = [] →
  let req := api_request (environ !! TOKEN) in
  handle_api_request srv environ net self o =
  (relay_result (fetched net req),
   mkOutput (stdout o ++ relay_log self (fetched net req))
            (urlopened o ++ [req]) []
            (wfile o ++ relay srv self (fetched net req)) (static_served o)).
Proof.
  intros Hnot Hbuf req. unfold handle_api_request, fetched, TOKEN in *.
  rewrite Hnot. fold req. destruct o as [out ups buf wf st].
  simpl in Hbuf. subst buf. run.
  destruct (net req) as [response|e]; cbn.
  - destruct (read response) as [data|e]; cbn.
    + by rewrite <- ?app_assoc, ?app_nil_r.
    + destruct e; cbn; rewrite ?send_error_run by reflexivity; cbn;
        by rewrite <- ?app_assoc, ?app_nil_r.
  - destruct e; cbn; rewrite ?send_error_run by reflexivity; cbn;
      by rewrite <- ?app_assoc, ?app_nil_r.
Qed.

(** A configured token is one for which [not token] is false. *)
Lemma not_configured tok :
  environ !! TOKEN = Some tok → tok ≠ "" → not_ (environ !! TOKEN) = false.
Proof.
  intros -> Hne. unfold not_. by apply bool_decide_eq_false.
Qed.

Lemma not_missing :
  environ !! TOKEN = None ∨ environ !! TOKEN = Some "" →
  not_ (environ !! TOKEN) = true.
Proof. by intros [-> | ->]. Qed.

Lemma do_GET_api o :
  path self = "/api/users" →
  do_GET srv environ net self o = handle_api_request srv environ net self o.
Proof. intros Hp. unfold do_GET. by rewrite bool_decide_eq_true_2. Qed.

Lemma do_GET_root :
  path self = "/" ∨ path self = "" →
  do_GET srv environ net self output0 =
  (inl tt, mkOutput [request_log self 302] [] [] (redirect_wire srv) []).
Proof.
  intros Hp. unfold do_GET.
  rewrite bool_decide_eq_false_2 by (destruct Hp as [-> | ->]; discriminate).
  replace (bool_decide (path self = "/") || bool_decide (path self = ""))
    with true by (destruct Hp as [-> | ->]; reflexivity).
  reflexivity.
Qed.

Lemma do_GET_static :
  path self ≠ "/api/users" → path self ≠ "/" → path self ≠ "" →
  do_GET srv environ net self output0 = super_do_GET self output0.
Proof.
  intros H1 H2 H3. unfold do_GET.
  by rewrite !bool_decide_eq_false_2.
Qed.

Lemma do_OPTIONS_run :
  do_OPTIONS srv self output0 =
  (inl tt, mkOutput [request_log self 200] [] [] (preflight_wire srv) []).
Proof. reflexivity. Qed.

End Proxy.

Section Startup.

Context (h : host) (environ : gmap string string) (dir : string).

Lemma main_no_html :
  (script_dir h, HTML_FILE) ∉ files h →
  main h environ (process0 dir) =
  (inr (SystemExit 1),
   mkProcess (script_dir h)
     [ "Error: emergency-signin.html not found in current directory";
       "Current directory: " +:+ script_dir h ] []).
Proof.
  intros Hno. unfold main. run.
  rewrite bool_decide_eq_false_2 by exact Hno. reflexivity.
Qed.

Lemma main_no_token :
  (script_dir h, HTML_FILE) ∈ files h →
  not_ (environ !! TOKEN) = true →
  (main h environ (process0 dir)).1 = serving_result h ∧
  sockets (main h environ (process0 dir)).2 = [("0.0.0.0", PORT h)] ∧
  "WARNING: EMERGENCY_NETWORKING_TOKEN environment variable not set"
    ∈ printed (main h environ (process0 dir)).2.
Proof.
  intros Hhtml Hnot. unfold main, serving_result, TOKEN in *. run.
  rewrite bool_decide_eq_true_2 by exact Hhtml. cbn. rewrite Hnot. cbn.
  destruct (bind h ("0.0.0.0", PORT h)) as [e|]; [|destruct (serve h) as [e|]];
    try destruct e; cbn; (split; [reflexivity | split; [reflexivity|]]);
    set_solver.
Qed.

End Startup.

(** * The opener below [urlopen] *)

Section Opener.

Context (c : client).

Lemma redirects_insert (visited : gmap string nat) url :
  redirects (<[url := S (default 0%nat (visited !! url))]> visited)
  = S (redirects visited).
Proof.
  unfold redirects.
  destruct (visited !! url) as [n|] eqn:Hurl; cbn [default].
  - rewrite <- (insert_delete_eq visited).
    rewrite <- (insert_delete_id visited url n Hurl) at 2.
    rewrite (map_fold_insert_L _ _ url (S n));
      [| intros; lia | by rewrite lookup_delete_eq].
    rewrite (map_fold_insert_L _ _ url n);
      [| intros; lia | by rewrite lookup_delete_eq].
    lia.
  - rewrite map_fold_insert_L; [lia | intros; lia | done].
Qed.

Lemma redirects_bound (visited : gmap string nat) :
  map_Forall (λ _ n, (n ≤ 4)%nat) visited →
  (redirects visited ≤ 4 * size visited)%nat.
Proof.
  unfold redirects.
  induction visited as [|url n visited Hurl IH] using map_ind.
  - intros _. by rewrite map_fold_empty, map_size_empty.
  - intros [Hn Hall]%map_Forall_insert; [|done].
    rewrite map_fold_insert_L; [| intros; lia | done].
    rewrite map_size_insert_None by done.
    specialize (IH Hall). lia.
Qed.

Lemma open_enough fuel (visited : gmap string nat) req :
  map_Forall (λ _ n, (n ≤ 4)%nat) visited →
  (size visited ≤ 10)%nat →
  (40 < fuel + redirects visited)%nat →
  is_Some (open_ fuel c visited req).
Proof.
  revert visited req.
  induction fuel as [|fuel IH]; intros visited req Hall Hsize Hfuel.
  - pose proof (redirects_bound visited Hall). lia.
  - cbn [open_].
    destruct (do_open c req) as [r|e]; [|by eexists].
    case_bool_decide; [by eexists|].
    case_bool_decide; [|by eexists].
    destruct (location (reply_hdrs r)) as [url|]; [|by eexists].
    destruct (redirect_url c (full_url req) url) as [newurl|]; [|by eexists].
    destruct (bool_decide (4 ≤ default 0 (visited !! newurl))%nat
              || bool_decide (10 ≤ size visited)%nat) eqn:Hloop;
      [by eexists|].
    apply orb_false_elim in Hloop as [Hseen%bool_decide_eq_false
                                      Hten%bool_decide_eq_false].
    destruct (reply_read r) as [b|e]; [|by eexists].
    apply IH.
    + apply map_Forall_insert_2; [cbn beta; lia | done].
    + pose proof (map_size_insert newurl (S (default 0%nat (visited !! newurl)))
                    visited) as Hins.
      destruct (visited !! newurl); cbn [id default] in *; unfold id in Hins; lia.
    + rewrite redirects_insert. lia.
Qed.

(** The fuel of [urlopen_via] never runs out. *)
Lemma open_total req : is_Some (open_ 41 c ∅ req).
Proof.
  apply open_enough.
  - apply map_Forall_empty.
  - rewrite map_size_empty. lia.
  - lia.
Qed.

(** An answer outside 200..299 that is not a redirect with a target is
    raised as an [HTTPError] with its code and reason. *)
Lemma open_unfollowed fuel (visited : gmap string nat) req r :
  do_open c req = inl r →
  ¬ (200 ≤ reply_code r < 300) →
  reply_code r ∉ REDIRECT_CODES ∨ location (reply_hdrs r) = None →
  open_ (S fuel) c visited req =
    Some (inr (HTTPError (reply_code r) (reply_msg r) (reply_hdrs r)
                 (reply_fp r))).
Proof.
  intros Hopen Hcode Hnot.
  change (open_ (S fuel) c visited req) with
    (match do_open c req with
     | inr e => Some (inr e)
     | inl r =>
         if bool_decide (200 ≤ reply_code r < 300) then
           Some (inl (mkHTTPResponse (reply_code r) (reply_hdrs r)
                        (reply_read r)))
         else if bool_decide (reply_code r ∈ REDIRECT_CODES) then
           match location (reply_hdrs r) with
           | None =>
               Some (inr (HTTPError (reply_code r) (reply_msg r)
                            (reply_hdrs r) (reply_fp r)))
           | Some newurl =>
               match redirect_url c (full_url req) newurl with
               | None =>
                   Some (inr (HTTPError (reply_code r)
                                (reply_msg r +:+ " - Redirection to url '"
                                 +:+ newurl +:+ "' is not allowed")
                                (reply_hdrs r) (reply_fp r)))
               | Some newurl =>
                   if bool_decide (4 ≤ default 0 (visited !! newurl))%nat
                      || bool_decide (10 ≤ size visited)%nat
                   then
                     Some (inr (HTTPError (reply_code r)
                                  (inf_msg +:+ reply_msg r)
                                  (reply_hdrs r) (reply_fp r)))
                   else
                     match reply_read r with
                     | inr e => Some (inr e)
                     | inl _ =>
                         open_ fuel c
                           (<[newurl := S (default 0%nat (visited !! newurl))]>
                              visited)
                           (mkRequest newurl (redirect_headers (headers req)))
                     end
               end
           end
         else
           Some (inr (HTTPError (reply_code r) (reply_msg r) (reply_hdrs r)
                        (reply_fp r)))
     end).
  rewrite Hopen.
  rewrite bool_decide_eq_false_2 by exact Hcode.
  destruct Hnot as [Hnot | Hloc].
  - by rewrite bool_decide_eq_false_2.
  - rewrite Hloc. by case_bool_decide.
Qed.

Lemma urlopen_via_unfollowed req r :
  do_open c req = inl r →
  ¬ (200 ≤ reply_code r < 300) →
  reply_code r ∉ REDIRECT_CODES ∨ location (reply_hdrs r) = None →
  urlopen_via c req =
    inr (HTTPError (reply_code r) (reply_msg r) (reply_hdrs r) (reply_fp r)).
Proof.
  intros Hopen Hcode Hnot. unfold urlopen_via.
  by rewrite (open_unfollowed 40 ∅ req r Hopen Hcode Hnot).
Qed.

End Opener.

(** * The claims of the specification *)

(** C1. A GET of /api/users with a non-empty token, for which the
    upstream answers 200 with body [B], is answered with status 200, body
    exactly [B] and the header Access-Control-Allow-Origin: *. *)
Theorem proxy_success_relays_body
    (srv : server) (environ : gmap string string) (net : network)
    (self : request) (tok : string) (response : HTTPResponse) (B : bytes) :
  path self = "/api/users" →
  environ !! TOKEN = Some tok → tok ≠ "" →
  net (api_request (Some tok)) = inl response →
  status response = 200 → read response = inl B →
  let w := wfile (do_GET srv environ net self output0).2 in
  response_status w = Some 200 ∧
  response_body w = B ∧
  header "Access-Control-Allow-Origin" (response_headers w) = Some "*".
Proof.
  intros Hp Htok Hne Hnet _ Hread w. subst w.
  rewrite do_GET_api by exact Hp.
  rewrite (handle_api_request_token srv environ net self output0
             (not_configured environ tok Htok Hne) eq_refl).
  unfold fetched. rewrite Htok, Hnet, Hread. cbn.
  by rewrite app_nil_r.
Qed.

(** C2. A GET of /api/users while the token variable is absent or empty
    is answered with status 500, nothing is handed to [urlopen], and the
    handler returns without an exception. *)
Theorem missing_token_gives_500
    (srv : server) (environ : gmap string string) (net : network)
    (self : request) :
  path self = "/api/users" →
  environ !! TOKEN = None ∨ environ !! TOKEN = Some "" →
  let r := do_GET srv environ net self output0 in
  r.1 = inl tt ∧
  response_status (wfile r.2) = Some 500 ∧
  urlopened r.2 = [].
Proof.
  intros Hp Htok r. subst r.
  rewrite do_GET_api by exact Hp.
  by rewrite (handle_api_request_no_token srv environ net self output0
                (not_missing environ Htok) eq_refl).
Qed.

(** An [HTTPError] with code [S] raised by [urlopen] is answered with
    status [S] and the message built from [S] and its reason. *)
Lemma HTTPError_status_relayed
    (srv : server) (environ : gmap string string) (net : network)
    (self : request) (tok : string) (S : Z) (reason : string)
    (hdrs : list (string * string)) (fp : bytes) :
  path self = "/api/users" →
  environ !! TOKEN = Some tok → tok ≠ "" →
  net (api_request (Some tok)) = inr (HTTPError S reason hdrs fp) →
  let w := wfile (do_GET srv environ net self output0).2 in
  response_status w = Some S ∧
  response_message w =
    Some (Some ("API Error: " +:+ pretty S +:+ " - " +:+ reason)).
Proof.
  intros Hp Htok Hne Hnet w. subst w.
  rewrite do_GET_api by exact Hp.
  rewrite (handle_api_request_token srv environ net self output0
             (not_configured environ tok Htok Hne) eq_refl).
  unfold fetched. rewrite Htok, Hnet. cbn [snd wfile output0 app relay].
  by rewrite error_wire_status, error_wire_message.
Qed.


Lemma exposed_app s (w1 w2 : list wire) :
  exposed s (w1 ++ w2) ↔ exposed s w1 ∨ exposed s w2.
Proof. apply Exists_app. Qed.

Lemma exposed_payload s (B : bytes) :
  exposed s [Payload B] ↔ occurs (encode s) B.
Proof.
  unfold exposed. rewrite Exists_cons, Exists_nil. cbn [appears_in]. tauto.
Qed.


(** C5 (as amended). For a GET of /api/users with a non-empty token: when
    [urlopen] returns a response, whatever its status and content type,
    the caller receives status 200, Content-Type application/json, the
    three CORS headers, and the bytes read from the upstream unmodified;
    when [urlopen] raises [HTTPError] with code [S], the caller receives
    status [S] and the page that [send_error] renders from the message
    built from [S] and the reason, not the content type or body of the
    upstream. *)
Theorem upstream_response_relay
    (srv : server) (environ : gmap string string) (net : network)
    (self : request) (tok : string) :
  path self = "/api/users" →
  environ !! TOKEN = Some tok → tok ≠ "" →
  let w := wfile (do_GET srv environ net self output0).2 in
  (∀ response B,
     net (api_request (Some tok)) = inl response → read response = inl B →
     response_status w = Some 200 ∧
     header "Content-Type" (response_headers w) = Some "application/json" ∧
     cors_headers (response_headers w) = CORS_HEADERS ∧
     response_body w = B) ∧
  (∀ S reason hdrs fp,
     net (api_request (Some tok)) = inr (HTTPError S reason hdrs fp) →
     response_status w = Some S ∧
     header "Content-Type" (response_headers w) =
       (if has_body S then Some (error_content_type srv) else None) ∧
     response_body w =
       (if has_body S && bool_decide (command self ≠ "HEAD")
        then error_page srv S (api_error_msg S reason) else [])).
Proof.
  intros Hp Htok Hne w. subst w.
  rewrite do_GET_api by exact Hp.
  rewrite (handle_api_request_token srv environ net self output0
             (not_configured environ tok Htok Hne) eq_refl).
  unfold fetched. rewrite Htok. split.
  - intros response B -> ->. cbn. by rewrite app_nil_r.
  - intros S reason hdrs fp ->. cbn [snd wfile output0 app relay].
    rewrite error_wire_status, error_wire_body, error_wire_headers.
    split_and!; [done | by destruct (has_body S) | done].
Qed.

(** C6. An OPTIONS request, whatever its path, is answered with status
    200, an empty body, and as CORS headers exactly the three lines
    Access-Control-Allow-Origin: *, Access-Control-Allow-Methods: GET,
    POST, OPTIONS and Access-Control-Allow-Headers: Content-Type,
    Authorization; the only other header lines are Server and Date, which
    [send_response] adds. *)
Theorem options_preflight (srv : server) (self : request) :
  let r := do_OPTIONS srv self output0 in
  r.1 = inl tt ∧
  response_status (wfile r.2) = Some 200 ∧
  response_body (wfile r.2) = [] ∧
  cors_headers (response_headers (wfile r.2)) = CORS_HEADERS ∧
  response_headers (wfile r.2) =
    [ ("Server", version_string srv); ("Date", date_time_string srv) ]
    ++ CORS_HEADERS.
Proof. by rewrite do_OPTIONS_run. Qed.

(** C7. A GET whose path is / or the empty string is answered with a 302
    redirect whose Location header is /emergency-signin.html. *)
Theorem root_redirects
    (srv : server) (environ : gmap string string) (net : network)
    (self : request) :
  path self = "/" ∨ path self = "" →
  let w := wfile (do_GET srv environ net self output0).2 in
  response_status w = Some 302 ∧
  header "Location" (response_headers w) = Some "/emergency-signin.html".
Proof. intros Hp w. subst w. by rewrite do_GET_root. Qed.

(** C8. At process start, if emergency-signin.html is not in the
    directory of the script, [main] ends with [SystemExit] of a non-zero
    status and no [TCPServer] has been constructed; if the file is there
    and the token variable is absent or empty, the warning is printed, the
    server is constructed on 0.0.0.0 and [PORT], and [main] ends as the
    server does. *)
Theorem startup_checks
    (h : host) (environ : gmap string string) (dir : string) :
  let r := main h environ (process0 dir) in
  ((script_dir h, HTML_FILE) ∉ files h →
     r.1 = inr (SystemExit 1) ∧ exit_status r.1 ≠ 0 ∧ sockets r.2 = []) ∧
  ((script_dir h, HTML_FILE) ∈ files h →
   environ !! TOKEN = None ∨ environ !! TOKEN = Some "" →
     "WARNING: EMERGENCY_NETWORKING_TOKEN environment variable not set"
       ∈ printed r.2 ∧
     sockets r.2 = [("0.0.0.0", PORT h)] ∧
     r.1 = serving_result h).
Proof.
  intros r. subst r. split.
  - intros Hno. by rewrite main_no_html.
  - intros Hhtml Htok.
    destruct (main_no_token h environ dir Hhtml (not_missing environ Htok))
      as (Hres & Hsock & Hwarn).
    done.
Qed.

(** C9. For a GET of /api/users, every error response (500 for a missing
    token, the relayed status of an upstream [HTTPError], 500 for any
    other exception) carries none of the three CORS headers; a response
    that carries one of them is a success response, and a success
    response carries all three. *)
Theorem error_responses_lack_cors
    (srv : server) (environ : gmap string string) (net : network)
    (self : request) :
  path self = "/api/users" →
  let tok := environ !! TOKEN in
  let r := fetched net (api_request tok) in
  let w := wfile (do_GET srv environ net self output0).2 in
  (not_ tok = true →
     response_status w = Some 500 ∧ lacks_cors (response_headers w)) ∧
  (not_ tok = false → ∀ S reason hdrs fp,
     r = inr (HTTPError S reason hdrs fp) →
     response_status w = Some S ∧ lacks_cors (response_headers w)) ∧
  (not_ tok = false → ∀ s,
     r = inr (Exception s) →
     response_status w = Some 500 ∧ lacks_cors (response_headers w)) ∧
  (not_ tok = false → ∀ B,
     r = inl B → cors_headers (response_headers w) = CORS_HEADERS) ∧
  (¬ lacks_cors (response_headers w) → not_ tok = false ∧ ∃ B, r = inl B).
Proof.
  intros Hp tok r w. subst w.
  rewrite do_GET_api by exact Hp.
  destruct (not_ tok) eqn:Hnot; subst tok.
  - rewrite (handle_api_request_no_token srv environ net self output0
               Hnot eq_refl).
    cbn [snd wfile output0 app].
    split_and!; try discriminate.
    + intros _. split; [apply error_wire_status | apply error_wire_lacks_cors].
    + intros Hc. destruct Hc. apply error_wire_lacks_cors.
  - rewrite (handle_api_request_token srv environ net self output0
               Hnot eq_refl).
    cbn [snd wfile output0 app]. fold r.
    split_and!; try discriminate.
    + intros _ S reason hdrs fp ->. cbn [relay].
      split; [apply error_wire_status | apply error_wire_lacks_cors].
    + intros _ s ->. cbn [relay].
      split; [apply error_wire_status | apply error_wire_lacks_cors].
    + by intros _ B ->.
    + intros Hc. split; [done|].
      destruct r as [B | [S reason hdrs fp | s | | c]]; cbn [relay] in Hc.
      * by exists B.
      * destruct Hc. apply error_wire_lacks_cors.
      * destruct Hc. apply error_wire_lacks_cors.
      * destruct Hc. repeat constructor.
      * destruct Hc. repeat constructor.
Qed.

(** C10. [do_GET] behaves as the proxy exactly when the raw path is the
    string /api/users; with any other path nothing is handed to
    [urlopen]; the paths /api/users?x=1 and /api/users/ go to static file
    serving; and the static file server is called for every path except
    /api/users, / and the empty string. *)
Theorem proxy_dispatch_exact
    (srv : server) (environ : gmap string string) (net : network)
    (self : request) :
  let r := do_GET srv environ net self output0 in
  (r = handle_api_request srv environ net self output0
     ↔ path self = "/api/users") ∧
  (path self ≠ "/api/users" → urlopened r.2 = []) ∧
  (path self = "/api/users?x=1" ∨ path self = "/api/users/" →
     r = super_do_GET self output0) ∧
  (static_served r.2 = [path self]
     ↔ path self ∉ ["/api/users"; "/"; ""]) ∧
  (path self = "/" ∨ path self = "" → static_served r.2 = []).
Proof.
  intros r. subst r. split_and!.
  - split; [|apply do_GET_api].
    intros Heq. destruct (decide (path self = "/api/users")) as [|Hp]; [done|].
    exfalso. revert Heq. unfold do_GET.
    rewrite bool_decide_eq_false_2 by exact Hp.
    destruct (not_ (environ !! TOKEN)) eqn:Hnot.
    + rewrite (handle_api_request_no_token srv environ net self output0
                 Hnot eq_refl).
      destruct (bool_decide (path self = "/") || bool_decide (path self = ""));
        intros Heq; apply (f_equal (λ x, wfile x.2)) in Heq; discriminate Heq.
    + rewrite (handle_api_request_token srv environ net self output0
                 Hnot eq_refl).
      destruct (bool_decide (path self = "/") || bool_decide (path self = ""));
        intros Heq; apply (f_equal (λ x, urlopened x.2)) in Heq;
        discriminate Heq.
  - intros Hp. unfold do_GET. rewrite bool_decide_eq_false_2 by exact Hp.
    by destruct (bool_decide (path self = "/") || bool_decide (path self = "")).
  - intros Hp. apply do_GET_static; destruct Hp as [-> | ->]; discriminate.
  - split.
    + intros Hst Hin. revert Hst.
      rewrite !elem_of_cons, elem_of_nil in Hin.
      destruct Hin as [Hp | [Hp | [Hp | []]]].
      * rewrite do_GET_api by exact Hp.
        destruct (not_ (environ !! TOKEN)) eqn:Hnot.
        -- by rewrite (handle_api_request_no_token srv environ net self
                         output0 Hnot eq_refl).
        -- by rewrite (handle_api_request_token srv environ net self
                         output0 Hnot eq_refl).
      * by rewrite do_GET_root by auto.
      * by rewrite do_GET_root by auto.
    + intros Hnin. rewrite !not_elem_of_cons in Hnin.
      destruct Hnin as (H1 & H2 & H3 & _).
      by rewrite do_GET_static.
  - intros Hp. by rewrite do_GET_root.
Qed.

(** * The claims at concrete requests *)

Lemma proxy_success_relays_body_witness :
  let w := wfile (do_GET example_server (environ_with "s3cr3t")
                    (upstream_answers (inl users_200))
                    (get_request "/api/users") output0).2 in
  response_status w = Some 200 ∧
  response_body w = users_body ∧
  header "Access-Control-Allow-Origin" (response_headers w) = Some "*".
Proof.
  apply (proxy_success_relays_body example_server (environ_with "s3cr3t")
           (upstream_answers (inl users_200)) (get_request "/api/users")
           "s3cr3t" users_200 users_body);
    [reflexivity | reflexivity | discriminate
    | reflexivity | reflexivity | reflexivity].
Defined.

Lemma missing_token_gives_500_witness :
  let r := do_GET example_server ∅ (upstream_answers (inl users_200))
             (get_request "/api/users") output0 in
  r.1 = inl tt ∧ response_status (wfile r.2) = Some 500 ∧ urlopened r.2 = [].
Proof.
  apply (missing_token_gives_500 example_server ∅
           (upstream_answers (inl users_200)) (get_request "/api/users"));
    [reflexivity | left; reflexivity].
Defined.



Lemma upstream_response_relay_witness :
  let w := wfile (do_GET example_server (environ_with "s3cr3t")
                    (upstream_answers (inl created_201))
                    (get_request "/api/users") output0).2 in
  response_status w = Some 200 ∧
  header "Content-Type" (response_headers w) = Some "application/json" ∧
  cors_headers (response_headers w) = CORS_HEADERS ∧
  response_body w = encode "created".
Proof.
  apply (proj1 (upstream_response_relay example_server
                  (environ_with "s3cr3t") (upstream_answers (inl created_201))
                  (get_request "/api/users") "s3cr3t"
                  eq_refl eq_refl ltac:(discriminate))
           created_201 (encode "created"));
    reflexivity.
Defined.

Lemma root_redirects_witness :
  let w := wfile (do_GET example_server ∅ (upstream_answers (inl users_200))
                    (get_request "/") output0).2 in
  response_status w = Some 302 ∧
  header "Location" (response_headers w) = Some "/emergency-signin.html".
Proof.
  apply (root_redirects example_server ∅ (upstream_answers (inl users_200))
           (get_request "/")).
  left; reflexivity.
Defined.

Lemma startup_checks_witness :
  (let r := main host_without_html ∅ (process0 "/") in
   r.1 = inr (SystemExit 1) ∧ exit_status r.1 ≠ 0 ∧ sockets r.2 = []) ∧
  (let r := main host_with_html ∅ (process0 "/") in
   "WARNING: EMERGENCY_NETWORKING_TOKEN environment variable not set"
     ∈ printed r.2 ∧
   sockets r.2 = [("0.0.0.0", 10000)] ∧
   r.1 = inl tt).
Proof.
  split.
  - apply (proj1 (startup_checks host_without_html ∅ "/")).
    apply (bool_decide_unpack _). vm_compute. exact I.
  - apply (proj2 (startup_checks host_with_html ∅ "/")).
    + apply (bool_decide_unpack _). vm_compute. exact I.
    + left. reflexivity.
Defined.

Lemma error_responses_lack_cors_witness :
  let w := wfile (do_GET example_server (environ_with "s3cr3t")
                    (upstream_answers (inr not_found_404))
                    (get_request "/api/users") output0).2 in
  response_status w = Some 404 ∧ lacks_cors (response_headers w).
Proof.
  apply (proj1 (proj2 (error_responses_lack_cors example_server
                         (environ_with "s3cr3t")
                         (upstream_answers (inr not_found_404))
                         (get_request "/api/users") eq_refl))
           eq_refl 404 "Not Found" [("Content-Type", "application/json")]
           (encode "{error: no such department}")).
  reflexivity.
Defined.

Lemma proxy_dispatch_exact_witness :
  do_GET example_server (environ_with "s3cr3t")
    (upstream_answers (inl users_200)) (get_request "/api/users?x=1") output0
  = super_do_GET (get_request "/api/users?x=1") output0.
Proof.
  apply (proj1 (proj2 (proj2 (proxy_dispatch_exact example_server
                                (environ_with "s3cr3t")
                                (upstream_answers (inl users_200))
                                (get_request "/api/users?x=1"))))).
  left. reflexivity.
Defined.

(** * Where the specification and the program differ *)



(** C5, as the specification states it, fails: an upstream answer 201
    with content type text/plain reaches the caller as 200 with content
    type application/json. *)
Lemma created_201_not_relayed_verbatim :
  let w := wfile (do_GET example_server (environ_with "s3cr3t")
                    (upstream_answers (inl created_201))
                    (get_request "/api/users") output0).2 in
  ¬ relayed_verbatim created_201 (encode "created") w ∧
  response_status w = Some 200 ∧
  header "Content-Type" (response_headers w) = Some "application/json" ∧
  header "Content-Type" (getheaders created_201) = Some "text/plain".
Proof.
  split_and!; try reflexivity.
  intros [Hstatus _]. vm_compute in Hstatus. discriminate Hstatus.
Qed.

(** * Further properties of the handlers *)

Section Frame.

Context (srv : server) (environ : gmap string string) (net : network).
Context (self : request).

Lemma do_GET_root_from o :
  path self = "/" ∨ path self = "" →
  _headers_buffer o = [] →
  do_GET srv environ net self o =
  (inl tt,
   extend o (mkOutput [request_log self 302] [] [] (redirect_wire srv) [])).
Proof.
  intros Hp Hbuf. destruct o as [out ups buf wf st]. simpl in Hbuf. subst buf.
  unfold do_GET, extend, redirect_wire, request_log.
  rewrite bool_decide_eq_false_2 by (destruct Hp as [-> | ->]; discriminate).
  replace (bool_decide (path self = "/") || bool_decide (path self = ""))
    with true by (destruct Hp as [-> | ->]; reflexivity).
  run. same_lists. reflexivity.
Qed.

Lemma do_GET_static_from o :
  path self ≠ "/api/users" → path self ≠ "/" → path self ≠ "" →
  _headers_buffer o = [] →
  do_GET srv environ net self o =
  (inl tt, extend o (mkOutput [] [] [] [] [path self])).
Proof.
  intros H1 H2 H3 Hbuf. destruct o as [out ups buf wf st].
  simpl in Hbuf. subst buf. unfold do_GET, extend.
  rewrite !bool_decide_eq_false_2 by assumption.
  run. same_lists. reflexivity.
Qed.

Lemma do_OPTIONS_from o :
  _headers_buffer o = [] →
  do_OPTIONS srv self o =
  (inl tt,
   extend o (mkOutput [request_log self 200] [] [] (preflight_wire srv) [])).
Proof.
  intros Hbuf. destruct o as [out ups buf wf st]. simpl in Hbuf. subst buf.
  unfold do_OPTIONS, extend, preflight_wire, request_log.
  run. same_lists. reflexivity.
Qed.

Lemma handle_api_request_from o :
  _headers_buffer o = [] →
  handle_api_request srv environ net self o =
  ((handle_api_request srv environ net self output0).1,
   extend o (handle_api_request srv environ net self output0).2).
Proof.
  intros Hbuf. destruct (not_ (environ !! TOKEN)) eqn:Hnot.
  - rewrite (handle_api_request_no_token srv environ net self o Hnot Hbuf).
    rewrite (handle_api_request_no_token srv environ net self output0
               Hnot eq_refl).
    unfold extend.
    cbn [fst snd stdout urlopened _headers_buffer wfile static_served
         output0 app].
    by rewrite !app_nil_r.
  - rewrite (handle_api_request_token srv environ net self o Hnot Hbuf).
    rewrite (handle_api_request_token srv environ net self output0
               Hnot eq_refl).
    unfold extend.
    cbn [fst snd stdout urlopened _headers_buffer wfile static_served
         output0 app].
    by rewrite !app_nil_r.
Qed.

End Frame.

(** X1. The handlers keep no state between requests: started in any output
    whose header buffer is empty, [do_GET] and [do_OPTIONS] return what
    they return in the empty output and add to the output exactly what
    they write in the empty output. *)
Theorem handling_is_stateless
    (srv : server) (environ : gmap string string) (net : network)
    (self : request) (o : output) :
  _headers_buffer o = [] →
  do_GET srv environ net self o =
    ((do_GET srv environ net self output0).1,
     extend o (do_GET srv environ net self output0).2) ∧
  do_OPTIONS srv self o =
    ((do_OPTIONS srv self output0).1,
     extend o (do_OPTIONS srv self output0).2).
Proof.
  intros Hbuf. split.
  - destruct (decide (path self = "/api/users")) as [Hp|Hp].
    + rewrite !do_GET_api by exact Hp. by apply handle_api_request_from.
    + destruct (decide (path self = "/")) as [Hr|Hr];
        [|destruct (decide (path self = "")) as [He|He]].
      * rewrite (do_GET_root_from srv environ net self o) by auto.
        by rewrite (do_GET_root_from srv environ net self output0) by auto.
      * rewrite (do_GET_root_from srv environ net self o) by auto.
        by rewrite (do_GET_root_from srv environ net self output0) by auto.
      * rewrite (do_GET_static_from srv environ net self o) by auto.
        by rewrite (do_GET_static_from srv environ net self output0) by auto.
  - rewrite (do_OPTIONS_from srv self o) by exact Hbuf.
    by rewrite (do_OPTIONS_from srv self output0).
Qed.

Section Shape.

Context (srv : server) (self : request).

Lemma error_wire_one_response code message :
  one_response (error_wire srv self code message).
Proof.
  unfold error_wire.
  destruct (has_body code); cbn [andb].
  - exists code, (Some message),
      [ ("Server", version_string srv); ("Date", date_time_string srv);
        ("Connection", "close");
        ("Content-Type", error_content_type srv);
        ("Content-Length", pretty (length (error_page srv code message))) ].
    destruct (bool_decide (command self ≠ "HEAD")).
    + destruct (error_page srv code message) as [|b0 bs] eqn:Hpage.
      * exists []. split; [reflexivity | by left].
      * exists [Payload (b0 :: bs)]. split; [reflexivity | right; by eexists].
    + exists []. split; [reflexivity | by left].
  - exists code, (Some message),
      [ ("Server", version_string srv); ("Date", date_time_string srv);
        ("Connection", "close") ], [].
    split; [reflexivity | by left].
Qed.

Lemma success_wire_one_response data :
  one_response (success_wire srv data).
Proof.
  exists 200, None,
    ([ ("Server", version_string srv); ("Date", date_time_string srv);
       ("Content-Type", "application/json") ] ++ CORS_HEADERS),
    [Payload data].
  split; [reflexivity | right; by eexists].
Qed.

Lemma redirect_wire_one_response : one_response (redirect_wire srv).
Proof.
  exists 302, None,
    [ ("Server", version_string srv); ("Date", date_time_string srv);
      ("Location", "/emergency-signin.html") ], [].
  split; [reflexivity | by left].
Qed.

Lemma preflight_wire_one_response : one_response (preflight_wire srv).
Proof.
  exists 200, None,
    ([ ("Server", version_string srv); ("Date", date_time_string srv) ]
     ++ CORS_HEADERS), [].
  split; [reflexivity | by left].
Qed.

Lemma relay_shape r :
  relay srv self r = [] ∨ one_response (relay srv self r).
Proof.
  destruct r as [data | [code reason hdrs fp | s | | c]]; cbn [relay];
    auto using success_wire_one_response, error_wire_one_response.
Qed.

Lemma relay_returned r :
  relay_result r = inl tt → one_response (relay srv self r).
Proof.
  destruct r as [data | [code reason hdrs fp | s | | c]];
    cbn [relay relay_result]; intros Hret; try discriminate Hret;
    auto using success_wire_one_response, error_wire_one_response.
Qed.

End Shape.

(** X2. A handler never leaves a partial response: after [do_GET] or
    [do_OPTIONS] the header buffer is empty, and what was written to the
    caller is either nothing or one complete response (status line,
    header lines, blank line, at most one payload). When [do_GET] returns
    normally for the path /api/users, / or the empty path, and always for
    [do_OPTIONS], a complete response has been written. *)
Theorem one_complete_response
    (srv : server) (environ : gmap string string) (net : network)
    (self : request) :
  let r := do_GET srv environ net self output0 in
  let q := do_OPTIONS srv self output0 in
  _headers_buffer r.2 = [] ∧
  (wfile r.2 = [] ∨ one_response (wfile r.2)) ∧
  (r.1 = inl tt → path self ∈ ["/api/users"; "/"; ""] →
     one_response (wfile r.2)) ∧
  _headers_buffer q.2 = [] ∧
  one_response (wfile q.2).
Proof.
  intros r q. subst r q. rewrite do_OPTIONS_run.
  cbn [snd _headers_buffer wfile].
  destruct (decide (path self = "/api/users")) as [Hp|Hp].
  - rewrite do_GET_api by exact Hp.
    destruct (not_ (environ !! TOKEN)) eqn:Hnot.
    + rewrite (handle_api_request_no_token srv environ net self output0
                 Hnot eq_refl).
      cbn [fst snd _headers_buffer wfile output0 app].
      split_and!; auto using error_wire_one_response,
                             preflight_wire_one_response.
    + rewrite (handle_api_request_token srv environ net self output0
                 Hnot eq_refl).
      cbn [fst snd _headers_buffer wfile output0 app].
      split_and!; auto using relay_shape, preflight_wire_one_response.
      intros Hret _. by apply relay_returned.
  - destruct (decide (path self = "/")) as [Hr|Hr];
      [|destruct (decide (path self = "")) as [He|He]].
    + rewrite do_GET_root by auto. cbn [fst snd _headers_buffer wfile].
      split_and!; auto using redirect_wire_one_response,
                             preflight_wire_one_response.
    + rewrite do_GET_root by auto. cbn [fst snd _headers_buffer wfile].
      split_and!; auto using redirect_wire_one_response,
                             preflight_wire_one_response.
    + rewrite do_GET_static by auto.
      split_and!; auto using preflight_wire_one_response.
      intros _ Hin. rewrite !elem_of_cons, elem_of_nil in Hin. tauto.
Qed.

(** X3. Whenever a handler writes a response, the last line it prints is
    the request line logged through [log_message]: the client address in
    brackets, the quoted request line and the status code that was sent. *)
Theorem request_logged_with_status
    (srv : server) (environ : gmap string string) (net : network)
    (self : request) (code : Z) :
  let r := do_GET srv environ net self output0 in
  let q := do_OPTIONS srv self output0 in
  (response_status (wfile r.2) = Some code →
     last (stdout r.2) =
       Some ("[" +:+ client_address self +:+ "] " +:+ quote +:+
             requestline self +:+ quote +:+ " " +:+ pretty code +:+ " -")) ∧
  (response_status (wfile q.2) = Some code →
     last (stdout q.2) =
       Some ("[" +:+ client_address self +:+ "] " +:+ quote +:+
             requestline self +:+ quote +:+ " " +:+ pretty code +:+ " -")).
Proof.
  intros r q. subst r q. rewrite do_OPTIONS_run. split.
  - destruct (decide (path self = "/api/users")) as [Hp|Hp].
    + rewrite do_GET_api by exact Hp.
      destruct (not_ (environ !! TOKEN)) eqn:Hnot.
      * rewrite (handle_api_request_no_token srv environ net self output0
                   Hnot eq_refl).
        cbn [snd wfile stdout output0 app]. rewrite error_wire_status.
        by intros [= <-].
      * rewrite (handle_api_request_token srv environ net self output0
                   Hnot eq_refl).
        cbn [snd wfile stdout output0 app].
        destruct (fetched net (api_request (environ !! TOKEN)))
          as [data | [S reason hdrs fp | s | | c]];
          cbn [relay relay_log]; rewrite ?error_wire_status;
          try (by intros [= <-]); discriminate.
    + destruct (decide (path self = "/")) as [Hr|Hr];
        [|destruct (decide (path self = "")) as [He|He]].
      * rewrite do_GET_root by auto. by intros [= <-].
      * rewrite do_GET_root by auto. by intros [= <-].
      * rewrite do_GET_static by auto. discriminate.
  - by intros [= <-].
Qed.

(** X4. For a GET of /api/users with a non-empty token, an exception other
    than [HTTPError] raised by [urlopen] or by [read] is answered with
    status 500; the message of the answer is Proxy Error: followed by the
    text of the exception, the body is the error page for that message,
    and the same message is printed. *)
Theorem unexpected_error_gives_500
    (srv : server) (environ : gmap string string) (net : network)
    (self : request) (tok : string) (s : string) :
  path self = "/api/users" →
  environ !! TOKEN = Some tok → tok ≠ "" →
  fetched net (api_request (Some tok)) = inr (Exception s) →
  let r := do_GET srv environ net self output0 in
  r.1 = inl tt ∧
  response_status (wfile r.2) = Some 500 ∧
  response_message (wfile r.2) = Some (Some ("Proxy Error: " +:+ s)) ∧
  response_body (wfile r.2) =
    (if bool_decide (command self ≠ "HEAD")
     then error_page srv 500 ("Proxy Error: " +:+ s) else []) ∧
  ("Proxy Error: " +:+ s) ∈ stdout r.2.
Proof.
  intros Hp Htok Hne Hf r. subst r.
  rewrite do_GET_api by exact Hp.
  rewrite (handle_api_request_token srv environ net self output0
             (not_configured environ tok Htok Hne) eq_refl).
  rewrite Htok, Hf.
  cbn [fst snd wfile stdout output0 app relay relay_log relay_result].
  rewrite error_wire_status, error_wire_message, error_wire_body.
  split_and!; try done. set_solver.
Qed.

(** X5. For a GET of /api/users with a non-empty token, an exception that
    is not an [Exception] ([KeyboardInterrupt], [SystemExit]) raised while
    the upstream is fetched is not taken by the handler: it leaves
    [do_GET], nothing is written to the caller, and no error line is
    printed. *)
Theorem base_exception_escapes
    (srv : server) (environ : gmap string string) (net : network)
    (self : request) (tok : string) (e : exn) :
  path self = "/api/users" →
  environ !! TOKEN = Some tok → tok ≠ "" →
  fetched net (api_request (Some tok)) = inr e →
  e = KeyboardInterrupt ∨ (∃ c, e = SystemExit c) →
  let r := do_GET srv environ net self output0 in
  r.1 = inr e ∧
  wfile r.2 = [] ∧
  _headers_buffer r.2 = [] ∧
  stdout r.2 = ["Making API request to Emergency Networking..."].
Proof.
  intros Hp Htok Hne Hf He r. subst r.
  rewrite do_GET_api by exact Hp.
  rewrite (handle_api_request_token srv environ net self output0
             (not_configured environ tok Htok Hne) eq_refl).
  rewrite Htok, Hf.
  cbn [fst snd wfile _headers_buffer stdout output0 app].
  by destruct He as [-> | [c ->]].
Qed.

(** X6. Every failure of the proxy path is printed: the missing token as
    a line starting with ERROR:, an [HTTPError] as the API Error message
    built from its code and reason, any other [Exception] as the Proxy
    Error message built from its text. *)
Theorem every_failure_logged
    (srv : server) (environ : gmap string string) (net : network)
    (self : request) :
  path self = "/api/users" →
  let tok := environ !! TOKEN in
  let f := fetched net (api_request tok) in
  let out := stdout (do_GET srv environ net self output0).2 in
  (not_ tok = true →
     "ERROR: EMERGENCY_NETWORKING_TOKEN environment variable not set" ∈ out) ∧
  (not_ tok = false → ∀ S reason hdrs fp,
     f = inr (HTTPError S reason hdrs fp) →
     ("API Error: " +:+ pretty S +:+ " - " +:+ reason) ∈ out) ∧
  (not_ tok = false → ∀ s,
     f = inr (Exception s) → ("Proxy Error: " +:+ s) ∈ out).
Proof.
  intros Hp tok f out. subst out f tok.
  rewrite do_GET_api by exact Hp.
  destruct (not_ (environ !! TOKEN)) eqn:Hnot.
  - rewrite (handle_api_request_no_token srv environ net self output0
               Hnot eq_refl).
    cbn [snd stdout output0 app].
    split_and!; try discriminate. intros _. set_solver.
  - rewrite (handle_api_request_token srv environ net self output0
               Hnot eq_refl).
    cbn [snd stdout output0 app].
    split_and!; try discriminate.
    + intros _ S reason hdrs fp ->. cbn [relay_log]. set_solver.
    + intros _ s ->. cbn [relay_log]. set_solver.
Qed.

(** * Further properties of [main] *)

Section Serving.

Context (h : host) (environ : gmap string string) (dir : string).

Lemma serving_result_raised :
  serving_result h =
  match server_raised h with
  | None | Some KeyboardInterrupt => inl tt
  | Some (SystemExit c) => inr (SystemExit c)
  | Some _ => inr (SystemExit 1)
  end.
Proof. reflexivity. Qed.

Lemma main_html :
  (script_dir h, HTML_FILE) ∈ files h →
  main h environ (process0 dir) =
  (serving_result h,
   mkProcess (script_dir h)
     (token_lines environ ++ banner h ++ closing_lines h)
     [("0.0.0.0", PORT h)]).
Proof.
  intros Hhtml.
  unfold main, serving_result, closing_lines, server_raised, token_lines,
    banner, TOKEN.
  run. rewrite bool_decide_eq_true_2 by exact Hhtml. cbn [negb].
  destruct (not_ (environ !! "EMERGENCY_NETWORKING_TOKEN"));
    (destruct (bind h ("0.0.0.0", PORT h)) as [e|];
       [|destruct (serve h) as [e|]]; try destruct e; reflexivity).
Qed.

Lemma warning_in_token_lines :
  "WARNING: EMERGENCY_NETWORKING_TOKEN environment variable not set"
    ∈ token_lines environ ↔ not_ (environ !! TOKEN) = true.
Proof.
  unfold token_lines. destruct (not_ (environ !! TOKEN)).
  - split; [done | intros _; set_solver].
  - split; [|done]. rewrite list_elem_of_singleton. discriminate.
Qed.

Lemma warning_not_in_banner :
  "WARNING: EMERGENCY_NETWORKING_TOKEN environment variable not set"
    ∉ banner h ++ closing_lines h.
Proof.
  rewrite elem_of_app. unfold banner, closing_lines. intros [Hin | Hin].
  - rewrite !elem_of_cons, elem_of_nil in Hin.
    destruct Hin as [H|[H|[H|[H|[H|[H|[H|[]]]]]]]];
      cbn in H; discriminate H.
  - destruct (server_raised h) as [[S reason hdrs fp | s | | c]|];
      rewrite ?list_elem_of_singleton, ?elem_of_nil in Hin;
      try done; cbn in Hin; discriminate Hin.
Qed.

End Serving.

(** X7. The exit status of [main] is 0 exactly when the HTML file is in
    the directory of the script and the server ends without an error (it
    returns, is interrupted from the keyboard, or exits with status 0);
    whether the token is set plays no part. *)
Theorem main_exit_status
    (h : host) (environ : gmap string string) (dir : string) :
  exit_status (main h environ (process0 dir)).1 = 0 ↔
  (script_dir h, HTML_FILE) ∈ files h ∧ stops_cleanly h.
Proof.
  destruct (decide ((script_dir h, HTML_FILE) ∈ files h)) as [Hhtml|Hno].
  - rewrite main_html by exact Hhtml. cbn [fst].
    rewrite serving_result_raised. unfold stops_cleanly.
    destruct (server_raised h) as [[S reason hdrs fp | s | | c]|]; cbn;
      split; try tauto; try (intros [_ []]); discriminate.
  - rewrite main_no_html by exact Hno. cbn. split; [discriminate | tauto].
Qed.

(** X8. Once the HTML file is found, [main] constructs the server exactly
    once, on 0.0.0.0 and [PORT]. If constructing or running it raises an
    [Exception] with text [s], the last line printed is Server error:
    followed by [s] and [main] ends with [SystemExit] of status 1; if it
    raises [KeyboardInterrupt], the last line printed is a line break
    followed by Server stopped. and [main] returns normally. *)
Theorem server_stop_reported
    (h : host) (environ : gmap string string) (dir : string) :
  (script_dir h, HTML_FILE) ∈ files h →
  let r := main h environ (process0 dir) in
  sockets r.2 = [("0.0.0.0", PORT h)] ∧
  (∀ s, server_raised h = Some (Exception s) →
     r.1 = inr (SystemExit 1) ∧
     last (printed r.2) = Some ("Server error: " +:+ s)) ∧
  (server_raised h = Some KeyboardInterrupt →
     r.1 = inl tt ∧
     last (printed r.2) = Some (newline +:+ "Server stopped.")).
Proof.
  intros Hhtml r. subst r. rewrite main_html by exact Hhtml.
  cbn [fst snd sockets printed]. rewrite serving_result_raised.
  unfold closing_lines. split_and!; [done | |].
  - intros s ->. split; [done|].
    by rewrite !app_assoc, last_snoc.
  - intros ->. split; [done|].
    by rewrite !app_assoc, last_snoc.
Qed.


(** X10. The check at start and the check in the handler agree: when the
    HTML file is found, [main] prints the warning about the token exactly
    when a GET of /api/users is answered with status 500 without anything
    being handed to [urlopen]. *)
Theorem startup_warning_predicts_proxy
    (h : host) (srv : server) (environ : gmap string string) (net : network)
    (self : request) (dir : string) :
  (script_dir h, HTML_FILE) ∈ files h →
  path self = "/api/users" →
  let r := do_GET srv environ net self output0 in
  "WARNING: EMERGENCY_NETWORKING_TOKEN environment variable not set"
    ∈ printed (main h environ (process0 dir)).2
  ↔ response_status (wfile r.2) = Some 500 ∧ urlopened r.2 = [].
Proof.
  intros Hhtml Hp r. subst r.
  rewrite main_html by exact Hhtml. cbn [snd printed].
  rewrite elem_of_app, warning_in_token_lines.
  rewrite do_GET_api by exact Hp.
  destruct (not_ (environ !! TOKEN)) eqn:Hnot.
  - rewrite (handle_api_request_no_token srv environ net self output0
               Hnot eq_refl).
    cbn [snd wfile urlopened output0 app]. rewrite error_wire_status.
    split; auto.
  - rewrite (handle_api_request_token srv environ net self output0
               Hnot eq_refl).
    cbn [snd wfile urlopened output0 app]. split.
    + intros [Hf | Hin]; [discriminate Hf|].
      by destruct (warning_not_in_banner h Hin).
    + intros [_ Hup]. discriminate Hup.
Qed.

(** * The further properties at concrete requests *)

Lemma handling_is_stateless_witness :
  let o := (do_OPTIONS example_server (get_request "/api/users") output0).2 in
  let env := environ_with "s3cr3t" in
  let net := upstream_answers (inl users_200) in
  do_GET example_server env net (get_request "/api/users") o =
    ((do_GET example_server env net (get_request "/api/users") output0).1,
     extend o (do_GET example_server env net (get_request "/api/users")
                 output0).2).
Proof.
  apply (handling_is_stateless example_server (environ_with "s3cr3t")
           (upstream_answers (inl users_200)) (get_request "/api/users")
           (do_OPTIONS example_server (get_request "/api/users") output0).2).
  reflexivity.
Defined.

Lemma one_complete_response_witness :
  one_response
    (wfile (do_GET example_server (environ_with "s3cr3t")
              (upstream_answers (inr not_found_404))
              (get_request "/api/users") output0).2).
Proof.
  apply (proj1 (proj2 (proj2 (one_complete_response example_server
                                (environ_with "s3cr3t")
                                (upstream_answers (inr not_found_404))
                                (get_request "/api/users"))))).
  - reflexivity.
  - apply list_elem_of_here.
Defined.

Lemma request_logged_with_status_witness :
  last (stdout (do_GET example_server (environ_with "s3cr3t")
                  (upstream_answers (inr not_found_404))
                  (get_request "/api/users") output0).2) =
  Some ("[10.0.0.7] " +:+ quote +:+ "GET /api/users HTTP/1.1" +:+ quote
        +:+ " 404 -").
Proof.
  apply (proj1 (request_logged_with_status example_server
                  (environ_with "s3cr3t")
                  (upstream_answers (inr not_found_404))
                  (get_request "/api/users") 404)).
  reflexivity.
Defined.

Lemma unexpected_error_gives_500_witness :
  let r := do_GET example_server (environ_with "s3cr3t")
             (upstream_answers (inr timed_out))
             (get_request "/api/users") output0 in
  r.1 = inl tt ∧
  response_status (wfile r.2) = Some 500 ∧
  response_message (wfile r.2)
    = Some (Some "Proxy Error: <urlopen error timed out>").
Proof.
  destruct (unexpected_error_gives_500 example_server (environ_with "s3cr3t")
              (upstream_answers (inr timed_out)) (get_request "/api/users")
              "s3cr3t" "<urlopen error timed out>"
              eq_refl eq_refl ltac:(discriminate) eq_refl)
    as (Hret & Hstatus & Hmsg & _).
  exact (conj Hret (conj Hstatus Hmsg)).
Defined.

Lemma base_exception_escapes_witness :
  let r := do_GET example_server (environ_with "s3cr3t")
             (upstream_answers (inr KeyboardInterrupt))
             (get_request "/api/users") output0 in
  r.1 = inr KeyboardInterrupt ∧
  wfile r.2 = [] ∧
  _headers_buffer r.2 = [] ∧
  stdout r.2 = ["Making API request to Emergency Networking..."].
Proof.
  apply (base_exception_escapes example_server (environ_with "s3cr3t")
           (upstream_answers (inr KeyboardInterrupt))
           (get_request "/api/users") "s3cr3t" KeyboardInterrupt);
    [ reflexivity | reflexivity | discriminate | reflexivity
    | left; reflexivity ].
Defined.

Lemma every_failure_logged_witness :
  "API Error: 404 - Not Found"
    ∈ stdout (do_GET example_server (environ_with "s3cr3t")
                (upstream_answers (inr not_found_404))
                (get_request "/api/users") output0).2.
Proof.
  apply (proj1 (proj2 (every_failure_logged example_server
                         (environ_with "s3cr3t")
                         (upstream_answers (inr not_found_404))
                         (get_request "/api/users") eq_refl))
           eq_refl 404 "Not Found" [("Content-Type", "application/json")]
           (encode "{error: no such department}")).
  reflexivity.
Defined.

Lemma main_exit_status_witness :
  exit_status (main host_with_html ∅ (process0 "/")).1 = 0.
Proof.
  apply (proj2 (main_exit_status host_with_html ∅ "/")). split.
  - apply (bool_decide_unpack _). vm_compute. exact I.
  - exact I.
Defined.

Lemma server_stop_reported_witness :
  let r := main host_port_in_use ∅ (process0 "/") in
  r.1 = inr (SystemExit 1) ∧
  last (printed r.2)
    = Some "Server error: [Errno 98] Address already in use".
Proof.
  apply (proj1 (proj2 (server_stop_reported host_port_in_use ∅ "/"
                         ltac:(apply (bool_decide_unpack _);
                               vm_compute; exact I)))
           "[Errno 98] Address already in use").
  reflexivity.
Defined.


Lemma startup_warning_predicts_proxy_witness :
  let r := do_GET example_server ∅ (upstream_answers (inl users_200))
             (get_request "/api/users") output0 in
  response_status (wfile r.2) = Some 500 ∧ urlopened r.2 = [].
Proof.
  apply (proj1 (startup_warning_predicts_proxy host_with_html example_server
                  ∅ (upstream_answers (inl users_200))
                  (get_request "/api/users") "/"
                  ltac:(apply (bool_decide_unpack _); vm_compute; exact I)
                  eq_refl)).
  apply list_elem_of_here.
Defined.
